(** * Verification of [src/core/config.py]

    The module defines two dataclasses, [DatabaseConfig] and [AppConfig],
    and the lazily built singleton [Config].  The embedding below keeps the
    state the Python code touches explicit:

    - [os.environ] is a finite map from variable names to their text;
    - [Config] objects live in a heap and are referred to by address, so
      that "the same instance" and "a distinct instance" are statements
      about addresses;
    - the class attribute [Config._instance] is a cell holding [None] or an
      address;
    - every call of [os.getenv] is recorded in a ghost log, oldest first.

    Python code is written in a state-and-exception monad. *)

From stdpp Require Import gmap strings list.

Open Scope string_scope.
Open Scope list_scope.
Open Scope nat_scope.

(** ** Exceptions and results *)

Inductive PyExc : Type :=
  | KeyError (key : string)      (* os.environ[key] on a missing key *)
  | InvalidRef (addr : nat)      (* attribute store through an address that
                                    holds no object *)
  | ValueError (msg : string)    (* os.environ[key] = value with a NUL byte in
                                    either, or with "=" in the name *)
  | OSError (errno : nat).       (* os.environ[key] = value refused by the
                                    C library *)

Inductive Result (A : Type) : Type :=
  | Ok (a : A)
  | Raise (e : PyExc).
Arguments Ok {A} a.
Arguments Raise {A} e.

(** ** The two dataclasses *)

Record DatabaseConfig : Type := mkDatabaseConfig {
  dbname : string;
  user : string;
  password : string;
  host : string;
  port : string
}.

Record AppConfig : Type := mkAppConfig {
  app_name : string;
  version : string;
  debug : bool;
  log_level : string;
  log_file_pattern : string
}.

(** Class-level attributes of [DatabaseConfig] (config.py, lines 47-51).
    [@dataclass] leaves a field's default on the class, which is what
    [cls.dbname] and the like read in [from_env]; the generated [__init__]
    uses the same values for omitted arguments. *)
Definition DatabaseConfig_dbname : string := "empls_db".
Definition DatabaseConfig_user : string := "postgres".
Definition DatabaseConfig_password : string := "0123".
Definition DatabaseConfig_host : string := "localhost".
Definition DatabaseConfig_port : string := "5432".

(** [DatabaseConfig(dbname=..., user=..., ...)]: the generated [__init__];
    an omitted keyword argument is [None] here and takes the class-level
    default. *)
Definition DatabaseConfig_init
    (a_dbname a_user a_password a_host a_port : option string) : DatabaseConfig :=
  {| dbname := default DatabaseConfig_dbname a_dbname;
     user := default DatabaseConfig_user a_user;
     password := default DatabaseConfig_password a_password;
     host := default DatabaseConfig_host a_host;
     port := default DatabaseConfig_port a_port |}.

(** Class-level attributes of [AppConfig] (lines 83-87). *)
Definition AppConfig_app_name : string := "Employee Systems".
Definition AppConfig_version : string := "1.01".
Definition AppConfig_debug : bool := false.
Definition AppConfig_log_level : string := "INFO".
Definition AppConfig_log_file_pattern : string := "app_errors_{date}.log".

Definition AppConfig_init
    (a_app_name a_version : option string) (a_debug : option bool)
    (a_log_level a_log_file_pattern : option string) : AppConfig :=
  {| app_name := default AppConfig_app_name a_app_name;
     version := default AppConfig_version a_version;
     debug := default AppConfig_debug a_debug;
     log_level := default AppConfig_log_level a_log_level;
     log_file_pattern := default AppConfig_log_file_pattern a_log_file_pattern |}.

(** ** Objects, heap and process state *)

Definition loc : Type := nat.

(** A [Config] object is its attribute dictionary: [__init__] stores
    [database] first and [app] second, so either may still be missing while
    the object is under construction. *)
Record ConfigObj : Type := mkConfigObj {
  database : option DatabaseConfig;
  app : option AppConfig
}.

Definition empty_obj : ConfigObj := {| database := None; app := None |}.

Definition store_database (v : DatabaseConfig) (o : ConfigObj) : ConfigObj :=
  {| database := Some v; app := app o |}.

Definition store_app (v : AppConfig) (o : ConfigObj) : ConfigObj :=
  {| database := database o; app := Some v |}.

Record State : Type := mkState {
  environ : gmap string string;   (* os.environ *)
  heap : list ConfigObj;          (* Config objects, indexed by address *)
  _instance : option loc;         (* Config._instance *)
  reads : list string             (* ghost log of os.getenv keys *)
}.

Definition with_environ (e : gmap string string) (s : State) : State :=
  {| environ := e; heap := heap s; _instance := _instance s; reads := reads s |}.

Definition with_heap (h : list ConfigObj) (s : State) : State :=
  {| environ := environ s; heap := h; _instance := _instance s; reads := reads s |}.

Definition with_instance (i : option loc) (s : State) : State :=
  {| environ := environ s; heap := heap s; _instance := i; reads := reads s |}.

Definition with_reads (r : list string) (s : State) : State :=
  {| environ := environ s; heap := heap s; _instance := _instance s; reads := r |}.

(** The state of a process that has just imported the module: no object,
    [Config._instance = None] (line 95), nothing read yet. *)
Definition initial (e : gmap string string) : State :=
  {| environ := e; heap := []; _instance := None; reads := [] |}.

(** ** The monad *)

Definition M (A : Type) : Type := State → Result (A * State).

Definition ret {A} (a : A) : M A := λ s, Ok (a, s).

Definition bind {A B} (m : M A) (k : A → M B) : M B :=
  λ s, match m s with
       | Ok (a, s') => k a s'
       | Raise e => Raise e
       end.

Definition raise {A} (e : PyExc) : M A := λ _, Raise e.

(** [try: body  except KeyError: handler] *)
Definition try_except_KeyError {A} (body handler : M A) : M A :=
  λ s, match body s with
       | Ok r => Ok r
       | Raise (KeyError _) => handler s
       | Raise e => Raise e
       end.

Declare Scope py_scope.
Delimit Scope py_scope with py.
Notation "x <- m ;; k" := (bind m (λ x, k))
  (at level 100, m at next level, right associativity) : py_scope.
Notation "m ;;; k" := (bind m (λ _, k))
  (at level 100, right associativity) : py_scope.
Open Scope py_scope.

(** ** The [os] module *)

(** [os.environ[key]] *)
Definition environ_getitem (key : string) : M string :=
  λ s, match environ s !! key with
       | Some v => Ok (v, s)
       | None => Raise (KeyError key)
       end.

(** [os.environ.get(key, default)], the [Mapping.get] mixin. *)
Definition environ_get (key default : string) : M string :=
  try_except_KeyError (environ_getitem key) (ret default).

(** [os.getenv(key, default)]; the call is logged. *)
Definition os_getenv (key default : string) : M string :=
  λ s, environ_get key default (with_reads (reads s ++ [key]) s).

(** [os.environ[key] = value] and [os.environ.pop(key, None)], as a test
    or the surrounding program may do between calls. *)
Definition environ_setitem (key value : string) : M unit :=
  λ s, Ok (tt, with_environ (<[key := value]> (environ s)) s).

Definition environ_delitem (key : string) : M unit :=
  λ s, Ok (tt, with_environ (delete key (environ s)) s).

(** ** Object primitives *)

(** [object.__new__(Config)]: a fresh address holding an object without
    attributes; addresses are never reused. *)
Definition alloc : M loc :=
  λ s, Ok (length (heap s), with_heap (heap s ++ [empty_obj]) s).

(** [self.attr = v] *)
Definition setattr (self : loc) (upd : ConfigObj → ConfigObj) : M unit :=
  λ s, match heap s !! self with
       | Some o => Ok (tt, with_heap (<[self := upd o]> (heap s)) s)
       | None => Raise (InvalidRef self)
       end.

Definition load_instance : M (option loc) := λ s, Ok (_instance s, s).

Definition store_instance (i : option loc) : M unit :=
  λ s, Ok (tt, with_instance i s).

(** ** [DatabaseConfig.from_env] (lines 53-69)

    Keyword arguments are evaluated left to right. *)
Definition DatabaseConfig_from_env : M DatabaseConfig :=
  a_dbname <- os_getenv "DB_NAME" DatabaseConfig_dbname ;;
  a_user <- os_getenv "DB_USER" DatabaseConfig_user ;;
  a_password <- os_getenv "DB_PASSWORD" DatabaseConfig_password ;;
  a_host <- os_getenv "DB_HOST" DatabaseConfig_host ;;
  a_port <- os_getenv "DB_PORT" DatabaseConfig_port ;;
  ret (DatabaseConfig_init (Some a_dbname) (Some a_user) (Some a_password)
         (Some a_host) (Some a_port)).

(** [DatabaseConfig()] and [AppConfig()] with no argument. *)
Definition DatabaseConfig_call : M DatabaseConfig :=
  ret (DatabaseConfig_init None None None None None).

Definition AppConfig_call : M AppConfig :=
  ret (AppConfig_init None None None None None).

(** ** [Config] (lines 90-111) *)

Definition Config_init (self : loc) : M unit :=
  db <- DatabaseConfig_from_env ;;
  setattr self (store_database db) ;;;
  a <- AppConfig_call ;;
  setattr self (store_app a).

(** [Config()]: allocate, run [__init__], hand out the address. *)
Definition Config_call : M loc :=
  self <- alloc ;;
  Config_init self ;;;
  ret self.

Definition Config_get_instance : M (option loc) :=
  i <- load_instance ;;
  match i with
  | None => (o <- Config_call ;; store_instance (Some o))
  | Some _ => ret tt
  end ;;;
  load_instance.

Definition Config_reset : M unit := store_instance None.

(** ** Executions

    What a caller can do to the singleton between two observations:
    retrieve it, reset it, or change the environment. *)

Inductive EnvOp : Type :=
  | Setenv (key value : string)
  | Delenv (key : string).

Inductive Op : Type :=
  | OpGetInstance
  | OpReset
  | OpEnv (e : EnvOp).

Definition run_env_op (e : EnvOp) : M unit :=
  match e with
  | Setenv k v => environ_setitem k v
  | Delenv k => environ_delitem k
  end.

Fixpoint run_env (es : list EnvOp) : M unit :=
  match es with
  | [] => ret tt
  | e :: es' => run_env_op e ;;; run_env es'
  end.

Definition run_op (o : Op) : M unit :=
  match o with
  | OpGetInstance => Config_get_instance ;;; ret tt
  | OpReset => Config_reset
  | OpEnv e => run_env_op e
  end.

Fixpoint run (ops : list Op) : M unit :=
  match ops with
  | [] => ret tt
  | o :: ops' => run_op o ;;; run ops'
  end.

(** [n] retrievals in a row, collecting what each call returned. *)
Fixpoint repeat_get_instance (n : nat) : M (list (option loc)) :=
  match n with
  | 0 => ret []
  | S n' =>
      r <- Config_get_instance ;;
      rs <- repeat_get_instance n' ;;
      ret (r :: rs)
  end.

(** ** Vocabulary of the statements *)

(** The five fields with the variable each one is read from
    (lines 64-68). *)
Inductive DbField : Type := F_dbname | F_user | F_password | F_host | F_port.

Definition env_var (f : DbField) : string :=
  match f with
  | F_dbname => "DB_NAME"
  | F_user => "DB_USER"
  | F_password => "DB_PASSWORD"
  | F_host => "DB_HOST"
  | F_port => "DB_PORT"
  end.

Definition field_value (f : DbField) (c : DatabaseConfig) : string :=
  match f with
  | F_dbname => dbname c
  | F_user => user c
  | F_password => password c
  | F_host => host c
  | F_port => port c
  end.

Definition class_default (f : DbField) : string :=
  match f with
  | F_dbname => DatabaseConfig_dbname
  | F_user => DatabaseConfig_user
  | F_password => DatabaseConfig_password
  | F_host => DatabaseConfig_host
  | F_port => DatabaseConfig_port
  end.

(** The keys one run of [from_env] passes to [os.getenv], in order. *)
Definition db_vars : list string :=
  ["DB_NAME"; "DB_USER"; "DB_PASSWORD"; "DB_HOST"; "DB_PORT"].

(** The cache holds an instance. *)
Definition cached (s : State) : bool :=
  match _instance s with
  | Some _ => true
  | None => false
  end.

(** An object with both attributes stored. *)
Definition fully_built (o : ConfigObj) : bool :=
  match database o, app o with
  | Some _, Some _ => true
  | _, _ => false
  end.

(** The cache refers to an object: a Python reference never dangles. *)
Definition allocated (s : State) : bool :=
  match _instance s with
  | None => true
  | Some l =>
      match heap s !! l with
      | Some _ => true
      | None => false
      end
  end.

(** Moreover [__init__] has finished on what the cache refers to. *)
Definition well_formed (s : State) : bool :=
  match _instance s with
  | None => true
  | Some l =>
      match heap s !! l with
      | Some o => fully_built o
      | None => false
      end
  end.

(** How many of the retrievals in [ops] find the cache empty, given
    whether it holds an instance at the start. *)
Fixpoint constructions (ops : list Op) (has_instance : bool) : nat :=
  match ops with
  | [] => 0
  | OpGetInstance :: ops' =>
      (if has_instance then 0 else 1) + constructions ops' true
  | OpReset :: ops' => constructions ops' false
  | OpEnv _ :: ops' => constructions ops' has_instance
  end.

(** The record [from_env] is shown to build from an environment, and the
    object [Config()] is shown to leave on the heap. *)
Definition config_of_env (e : gmap string string) : DatabaseConfig :=
  {| dbname := default DatabaseConfig_dbname (e !! "DB_NAME");
     user := default DatabaseConfig_user (e !! "DB_USER");
     password := default DatabaseConfig_password (e !! "DB_PASSWORD");
     host := default DatabaseConfig_host (e !! "DB_HOST");
     port := default DatabaseConfig_port (e !! "DB_PORT") |}.

Definition config_obj (e : gmap string string) : ConfigObj :=
  {| database := Some (config_of_env e);
     app := Some (AppConfig_init None None None None None) |}.

(** A concrete environment and a concrete cached state for examples. *)
Definition env_example : gmap string string :=
  <["DB_HOST" := "db.example.internal"]> (<["DB_PORT" := "6543"]> ∅).

Definition env_empty_password : gmap string string :=
  <["DB_PASSWORD" := ""]> ∅.

Definition env_unrelated : gmap string string :=
  <["HOME" := "/root"]> (<["DB_PORTS" := "1"]> ∅).

Definition state_example : State :=
  {| environ := env_example;
     heap := [config_obj ∅; config_obj env_example];
     _instance := Some 1;
     reads := db_vars ++ db_vars |}.

(** ** Vocabulary for whole executions *)

(** The effect of the environment changes alone on [os.environ]. *)
Definition apply_env_op (e : EnvOp) (env : gmap string string) : gmap string string :=
  match e with
  | Setenv k v => <[k := v]> env
  | Delenv k => delete k env
  end.

Fixpoint apply_env (es : list EnvOp) (env : gmap string string) : gmap string string :=
  match es with
  | [] => env
  | e :: es' => apply_env es' (apply_env_op e env)
  end.

(** The environment changes of an execution, in order. *)
Fixpoint env_part (ops : list Op) : list EnvOp :=
  match ops with
  | [] => []
  | OpEnv e :: ops' => e :: env_part ops'
  | _ :: ops' => env_part ops'
  end.

(** The number of resets of an execution. *)
Fixpoint resets (ops : list Op) : nat :=
  match ops with
  | [] => 0
  | OpReset :: ops' => S (resets ops')
  | _ :: ops' => resets ops'
  end.

(** The environments seen by the retrievals of [ops] that find the cache
    empty, in order, starting from environment [env]. *)
Fixpoint built_from (ops : list Op) (env : gmap string string) (has_instance : bool)
    : list (gmap string string) :=
  match ops with
  | [] => []
  | OpGetInstance :: ops' =>
      (if has_instance then [] else [env]) ++ built_from ops' env true
  | OpReset :: ops' => built_from ops' env false
  | OpEnv e :: ops' => built_from ops' (apply_env_op e env) has_instance
  end.

(** ** Assignment to [os.environ] with its checks

    [environ_setitem] above is the assignment of a name and a value the
    operating system accepts.  The full [os.environ[key] = value] first
    refuses a NUL byte in the name or in the value, then a name that
    contains "=", then the empty name. *)
Fixpoint contains_char (ch : Ascii.ascii) (v : string) : bool :=
  match v with
  | EmptyString => false
  | String a v' => Ascii.eqb a ch || contains_char ch v'
  end.

Definition has_nul (v : string) : bool := contains_char Ascii.zero v.

(** The character "=" (code 61). *)
Definition equals_sign : Ascii.ascii := Ascii.ascii_of_nat 61.

Definition environ_setitem_checked (key value : string) : M unit :=
  if has_nul key || has_nul value then
    raise (ValueError "embedded null byte")
  else if contains_char equals_sign key then
    raise (ValueError "illegal environment variable name")
  else if String.eqb key "" then
    raise (OSError 22)
  else
    environ_setitem key value.

(** The five assignments that write a record's fields to the variables
    [from_env] reads. *)
Definition export_env (c : DatabaseConfig) : M unit :=
  environ_setitem_checked "DB_NAME" (dbname c) ;;;
  environ_setitem_checked "DB_USER" (user c) ;;;
  environ_setitem_checked "DB_PASSWORD" (password c) ;;;
  environ_setitem_checked "DB_HOST" (host c) ;;;
  environ_setitem_checked "DB_PORT" (port c).


Definition config_with_nul : DatabaseConfig :=
  {| dbname := String Ascii.zero "ems"; user := "hr"; password := "";
     host := "10.0.0.7"; port := "6543" |}.

Definition config_example : DatabaseConfig :=
  {| dbname := "ems"; user := "hr"; password := ""; host := "10.0.0.7";
     port := "6543" |}.

Definition ops_example : list Op :=
  [OpGetInstance; OpEnv (Setenv "DB_USER" "ems"); OpGetInstance; OpReset;
   OpEnv (Delenv "DB_PORT"); OpGetInstance; OpGetInstance].

(** ** Sanity checks on concrete environments *)

Example from_env_example :
  DatabaseConfig_from_env (initial env_example) =
  Ok ({| dbname := "empls_db"; user := "postgres"; password := "0123";
         host := "db.example.internal"; port := "6543" |},
      with_reads db_vars (initial env_example)).
Proof. vm_compute. reflexivity. Qed.

Example get_instance_example :
  (r <- repeat_get_instance 3 ;; Config_reset ;;; r' <- Config_get_instance ;; ret (r, r'))
    (initial env_example)
  = Ok (([Some 0; Some 0; Some 0], Some 1),
        {| environ := env_example;
           heap := let o := {| database := Some (mkDatabaseConfig "empls_db" "postgres" "0123"
                                                   "db.example.internal" "6543");
                               app := Some (mkAppConfig "Employee Systems" "1.01" false "INFO"
                                              "app_errors_{date}.log") |} in [o; o];
           _instance := Some 1;
           reads := db_vars ++ db_vars |}).
Proof. vm_compute. reflexivity. Qed.

(** * Equations of the operations *)

Section Equations.

Implicit Types (s : State) (l : loc) (f : DbField).

Lemma os_getenv_eq key d s :
  os_getenv key d s =
  Ok (default d (environ s !! key), with_reads (reads s ++ [key]) s).
Proof.
  unfold os_getenv, environ_get, try_except_KeyError, environ_getitem, ret.
  cbn. destruct (environ s !! key); reflexivity.
Qed.

Lemma from_env_eq s :
  DatabaseConfig_from_env s =
  Ok (config_of_env (environ s), with_reads (reads s ++ db_vars) s).
Proof.
  unfold DatabaseConfig_from_env, bind.
  repeat (rewrite os_getenv_eq; cbn).
  unfold ret, with_reads, config_of_env, DatabaseConfig_init, db_vars; cbn.
  repeat rewrite <- app_assoc. reflexivity.
Qed.

Lemma field_value_config_of_env f e :
  field_value f (config_of_env e) = default (class_default f) (e !! env_var f).
Proof. destruct f; reflexivity. Qed.

Lemma Config_call_eq s :
  Config_call s =
  Ok (length (heap s),
      {| environ := environ s;
         heap := heap s ++ [config_obj (environ s)];
         _instance := _instance s;
         reads := reads s ++ db_vars |}).
Proof.
  unfold Config_call, Config_init, bind, alloc.
  rewrite from_env_eq. unfold setattr, AppConfig_call, ret; cbn.
  rewrite list_lookup_middle by reflexivity; cbn.
  rewrite insert_app_r_alt by reflexivity.
  rewrite Nat.sub_diag; cbn.
  rewrite list_lookup_middle by reflexivity; cbn.
  rewrite insert_app_r_alt by reflexivity.
  rewrite Nat.sub_diag; cbn.
  reflexivity.
Qed.

Lemma get_instance_hit s l :
  _instance s = Some l → Config_get_instance s = Ok (Some l, s).
Proof.
  intros H. unfold Config_get_instance, bind, load_instance, ret.
  rewrite H; cbn. rewrite H. reflexivity.
Qed.

Lemma get_instance_miss s :
  _instance s = None →
  Config_get_instance s =
  Ok (Some (length (heap s)),
      {| environ := environ s;
         heap := heap s ++ [config_obj (environ s)];
         _instance := Some (length (heap s));
         reads := reads s ++ db_vars |}).
Proof.
  intros H. unfold Config_get_instance, bind, load_instance.
  rewrite H, Config_call_eq. reflexivity.
Qed.

Lemma reset_eq s : Config_reset s = Ok (tt, with_instance None s).
Proof. reflexivity. Qed.

Lemma run_env_eq es s :
  ∃ e', run_env es s = Ok (tt, with_environ e' s).
Proof.
  revert s. induction es as [|e es IH]; intros s.
  - exists (environ s). destruct s; reflexivity.
  - cbn [run_env]. unfold bind.
    destruct e as [k v|k]; cbn;
      match goal with |- context [run_env es ?t] => destruct (IH t) as [e' ->] end;
      exists e'; reflexivity.
Qed.

Lemma run_env_apply (es : list EnvOp) s :
  run_env es s = Ok (tt, with_environ (apply_env es (environ s)) s).
Proof.
  revert s. induction es as [|e es IH]; intros s.
  - destruct s; reflexivity.
  - cbn [run_env apply_env]. unfold bind.
    destruct e as [k v|k]; cbn; rewrite IH; reflexivity.
Qed.

End Equations.

(** * The database settings record *)

Section DatabaseSettings.

Implicit Types (s : State) (f : DbField).

(** What [from_env] returns, field by field. *)
Lemma from_env_field s f :
  ∃ c s', DatabaseConfig_from_env s = Ok (c, s') ∧
    field_value f c = default (class_default f) (environ s !! env_var f).
Proof.
  eexists _, _. split; [apply from_env_eq|].
  apply field_value_config_of_env.
Qed.

(** C1. When the variable of a database field is unset, [from_env]
    returns a record whose field is the documented default: "empls_db",
    "postgres", "0123", "localhost", "5432" for [dbname], [user],
    [password], [host], [port]. *)
Theorem from_env_default_fallback s f :
  environ s !! env_var f = None →
  ∃ c s', DatabaseConfig_from_env s = Ok (c, s') ∧
    field_value f c =
      match f with
      | F_dbname => "empls_db"
      | F_user => "postgres"
      | F_password => "0123"
      | F_host => "localhost"
      | F_port => "5432"
      end.
Proof.
  intros Hunset.
  destruct (from_env_field s f) as (c & s' & Hrun & Hval).
  exists c, s'. split; [exact Hrun|].
  rewrite Hval, Hunset. destruct f; reflexivity.
Qed.

Lemma from_env_default_fallback_witness :
  environ (initial env_example) !! env_var F_user = None ∧
  ∃ c s', DatabaseConfig_from_env (initial env_example) = Ok (c, s') ∧
    field_value F_user c = "postgres".
Proof.
  split; [reflexivity|].
  apply (from_env_default_fallback (initial env_example) F_user).
  reflexivity.
Defined.

(** C2. When the variable of a database field is set to some text,
    [from_env] returns a record whose field is exactly that text; the
    port in particular stays text, so DB_PORT=6543 gives "6543". *)
Theorem from_env_override s f (v : string) :
  environ s !! env_var f = Some v →
  ∃ c s', DatabaseConfig_from_env s = Ok (c, s') ∧ field_value f c = v.
Proof.
  intros Hset.
  destruct (from_env_field s f) as (c & s' & Hrun & Hval).
  exists c, s'. split; [exact Hrun|].
  rewrite Hval, Hset. reflexivity.
Qed.

Lemma from_env_override_witness :
  environ (initial env_example) !! "DB_PORT" = Some "6543" ∧
  ∃ c s', DatabaseConfig_from_env (initial env_example) = Ok (c, s') ∧
    port c = "6543".
Proof.
  split; [reflexivity|].
  apply (from_env_override (initial env_example) F_port "6543").
  reflexivity.
Defined.

(** C6. A variable set to the empty string gives the empty string in the
    field: the call returns, and the field is not the default. *)
Theorem from_env_empty_string s f :
  environ s !! env_var f = Some "" →
  ∃ c s', DatabaseConfig_from_env s = Ok (c, s') ∧
    field_value f c = "" ∧ field_value f c ≠ class_default f.
Proof.
  intros Hset.
  destruct (from_env_field s f) as (c & s' & Hrun & Hval).
  exists c, s'. split; [exact Hrun|].
  rewrite Hval, Hset. split; [reflexivity|].
  destruct f; discriminate.
Qed.

Lemma from_env_empty_string_witness :
  environ (initial env_empty_password) !! "DB_PASSWORD" = Some "" ∧
  ∃ c s', DatabaseConfig_from_env (initial env_empty_password) = Ok (c, s') ∧
    password c = "" ∧ password c ≠ "0123".
Proof.
  split; [reflexivity|].
  apply (from_env_empty_string (initial env_empty_password) F_password).
  reflexivity.
Defined.

(** C10. With none of the five variables set, [from_env] returns the
    record that [DatabaseConfig()] without arguments constructs. *)
Theorem from_env_unset_is_default_construction s :
  (∀ f, environ s !! env_var f = None) →
  ∃ c s1 s2,
    DatabaseConfig_from_env s = Ok (c, s1) ∧
    DatabaseConfig_call s = Ok (c, s2).
Proof.
  intros Hunset.
  exists (config_of_env (environ s)), (with_reads (reads s ++ db_vars) s), s.
  split; [apply from_env_eq|].
  unfold DatabaseConfig_call, ret, config_of_env, DatabaseConfig_init.
  pose proof (Hunset F_dbname) as H1. pose proof (Hunset F_user) as H2.
  pose proof (Hunset F_password) as H3. pose proof (Hunset F_host) as H4.
  pose proof (Hunset F_port) as H5. cbn in H1, H2, H3, H4, H5.
  rewrite H1, H2, H3, H4, H5. reflexivity.
Qed.

Lemma from_env_unset_is_default_construction_witness :
  ∃ c s1 s2,
    DatabaseConfig_from_env (initial env_unrelated) = Ok (c, s1) ∧
    DatabaseConfig_call (initial env_unrelated) = Ok (c, s2).
Proof.
  apply (from_env_unset_is_default_construction (initial env_unrelated)).
  intros f; destruct f; reflexivity.
Defined.

End DatabaseSettings.

(** * The application settings record *)

Section ApplicationSettings.

(** C3. In every state, whatever the environment holds, [AppConfig()]
    returns the fixed record without touching the state, and the object
    [Config()] builds carries that same record in [app]. *)
Theorem app_settings_fixed (s : State) :
  let fixed :=
    {| app_name := "Employee Systems"; version := "1.01"; debug := false;
       log_level := "INFO"; log_file_pattern := "app_errors_{date}.log" |} in
  AppConfig_call s = Ok (fixed, s) ∧
  ∃ l s' d,
    Config_call s = Ok (l, s') ∧
    heap s' !! l = Some {| database := Some d; app := Some fixed |}.
Proof.
  cbn zeta. split; [reflexivity|].
  eexists _, _, _. split; [apply Config_call_eq|].
  cbn [heap]. apply list_lookup_middle. reflexivity.
Qed.

End ApplicationSettings.

(** * The singleton *)

Section Singleton.

Implicit Types (s : State) (l : loc) (n : nat).

Lemma repeat_get_instance_hit n s l :
  _instance s = Some l →
  repeat_get_instance n s = Ok (replicate n (Some l), s).
Proof.
  intros H. induction n as [|n IH]; [reflexivity|].
  cbn [repeat_get_instance replicate]. unfold bind.
  rewrite (get_instance_hit s l H), IH. reflexivity.
Qed.

Lemma get_instance_returns s :
  ∃ l s', Config_get_instance s = Ok (Some l, s') ∧ _instance s' = Some l.
Proof.
  destruct (_instance s) as [l|] eqn:H.
  - exists l, s. split; [apply get_instance_hit|]; exact H.
  - eexists _, _. split; [apply get_instance_miss; exact H|]. reflexivity.
Qed.

(** A well-formed state has no dangling cache, and a process starts in a
    well-formed state. *)
Lemma well_formed_allocated s : well_formed s = true → allocated s = true.
Proof.
  unfold well_formed, allocated.
  destruct (_instance s) as [l|]; [|reflexivity].
  destruct (heap s !! l); [reflexivity | discriminate].
Qed.

Lemma initial_well_formed (e : gmap string string) :
  well_formed (initial e) = true.
Proof. reflexivity. Qed.

(** C4. [n >= 1] retrievals in a row all return the instance the first
    one returns, and leave the state the first one leaves. *)
Theorem get_instance_idempotent s n :
  1 ≤ n →
  ∃ l s1,
    Config_get_instance s = Ok (Some l, s1) ∧
    repeat_get_instance n s = Ok (replicate n (Some l), s1).
Proof.
  intros Hn. destruct n as [|n]; [lia|].
  destruct (get_instance_returns s) as (l & s1 & Hget & Hcache).
  exists l, s1. split; [exact Hget|].
  cbn [repeat_get_instance replicate]. unfold bind.
  rewrite Hget, (repeat_get_instance_hit n s1 l Hcache). reflexivity.
Qed.

Lemma get_instance_idempotent_witness :
  1 ≤ 4 ∧
  ∃ l s1,
    Config_get_instance (initial env_example) = Ok (Some l, s1) ∧
    repeat_get_instance 4 (initial env_example) = Ok (replicate 4 (Some l), s1).
Proof.
  split; [lia|].
  apply (get_instance_idempotent (initial env_example) 4). lia.
Defined.

(** C9. [reset] succeeds in every state and leaves the cache empty; a
    second [reset] changes nothing more, and on a state whose cache is
    already empty [reset] changes nothing at all. *)
Theorem reset_idempotent s :
  (∃ s1, Config_reset s = Ok (tt, s1) ∧ _instance s1 = None ∧
         Config_reset s1 = Ok (tt, s1)) ∧
  (_instance s = None → Config_reset s = Ok (tt, s)).
Proof.
  split.
  - exists (with_instance None s). repeat split; reflexivity.
  - intros H. rewrite reset_eq. destruct s as [e h i r].
    cbn in H. subst i. reflexivity.
Qed.

Lemma reset_idempotent_witness :
  (∃ s1, Config_reset state_example = Ok (tt, s1) ∧ _instance s1 = None ∧
         Config_reset s1 = Ok (tt, s1)) ∧
  Config_reset (initial env_example) = Ok (tt, initial env_example).
Proof.
  split.
  - apply (reset_idempotent state_example).
  - apply (reset_idempotent (initial env_example)). reflexivity.
Defined.

(** C7. No operation has a failure path: in every state each one
    returns a result and a state, never an exception, and retrieval
    never returns [None]. *)
Theorem operations_total s :
  (∃ c s', DatabaseConfig_from_env s = Ok (c, s')) ∧
  (∃ a s', AppConfig_call s = Ok (a, s')) ∧
  (∃ l s', Config_call s = Ok (l, s')) ∧
  (∃ l s', Config_get_instance s = Ok (Some l, s')) ∧
  (∃ s', Config_reset s = Ok (tt, s')).
Proof.
  repeat split.
  - eexists _, _. apply from_env_eq.
  - eexists _, _. reflexivity.
  - eexists _, _. apply Config_call_eq.
  - destruct (get_instance_returns s) as (l & s' & H & _). eauto.
  - eexists. apply reset_eq.
Qed.

End Singleton.

(** * Reset and rebuild *)

Section Rebuild.

Implicit Types (s : State) (l : loc).

(** The instance a retrieval returns is on the heap, provided the cache
    does not dangle in the state it starts from. *)
Lemma get_instance_allocated s :
  allocated s = true →
  ∃ l s' o,
    Config_get_instance s = Ok (Some l, s') ∧ heap s' !! l = Some o ∧
    environ s' = environ s.
Proof.
  unfold allocated. intros Hal. destruct (_instance s) as [i|] eqn:Hi.
  - destruct (heap s !! i) as [o|] eqn:Ho; [|discriminate].
    exists i, s, o. split; [apply get_instance_hit; exact Hi|].
    split; [exact Ho | reflexivity].
  - eexists _, _, (config_obj (environ s)).
    split; [apply get_instance_miss; exact Hi|].
    cbn [heap environ]. split; [|reflexivity].
    apply list_lookup_middle. reflexivity.
Qed.

(** C5. From a state whose cache does not dangle: retrieve, change the
    environment in any way, reset, change the environment again, retrieve.
    The second retrieval returns an address different from the first.  It
    reads the environment of that moment, which is the environment of the
    start with the changes made before and after the reset applied to it
    and nothing else: the object at the new address holds, in each
    database field, the value that environment gives to the field's
    variable if it is set and the default otherwise.  The object at the
    first address is the one it was. *)
Theorem reset_forces_rebuild s0 (before after : list EnvOp) :
  allocated s0 = true →
  ∃ l1 s1 s2 s3 s4 l2 s5 o1 c2 a2,
    Config_get_instance s0 = Ok (Some l1, s1) ∧
    run_env before s1 = Ok (tt, s2) ∧
    Config_reset s2 = Ok (tt, s3) ∧
    run_env after s3 = Ok (tt, s4) ∧
    Config_get_instance s4 = Ok (Some l2, s5) ∧
    l2 ≠ l1 ∧
    environ s4 = apply_env after (apply_env before (environ s0)) ∧
    heap s5 !! l2 = Some {| database := Some c2; app := Some a2 |} ∧
    (∀ f, field_value f c2 =
          default (class_default f)
            (apply_env after (apply_env before (environ s0)) !! env_var f)) ∧
    (∀ f v, apply_env after (apply_env before (environ s0)) !! env_var f = Some v →
            field_value f c2 = v) ∧
    heap s1 !! l1 = Some o1 ∧
    heap s5 !! l1 = Some o1.
Proof.
  intros Hal.
  destruct (get_instance_allocated s0 Hal)
    as (l1 & s1 & o1 & Hget1 & Ho1 & Henv1).
  set (e2 := apply_env before (environ s0)).
  set (e4 := apply_env after e2).
  exists l1, s1, (with_environ e2 s1), (with_instance None (with_environ e2 s1)),
    (with_environ e4 (with_instance None (with_environ e2 s1))),
    (length (heap s1)), {| environ := e4;
                           heap := heap s1 ++ [config_obj e4];
                           _instance := Some (length (heap s1));
                           reads := reads s1 ++ db_vars |},
    o1, (config_of_env e4), (AppConfig_init None None None None None).
  split; [exact Hget1|].
  split; [rewrite run_env_apply, Henv1; reflexivity|].
  split; [reflexivity|].
  split; [rewrite run_env_apply; reflexivity|].
  split; [rewrite get_instance_miss by reflexivity; reflexivity|].
  split; [apply lookup_lt_Some in Ho1; lia|].
  split; [reflexivity|].
  cbn [heap].
  split; [apply list_lookup_middle; reflexivity|].
  split; [intros f; apply field_value_config_of_env|].
  split; [intros f v Hv; rewrite field_value_config_of_env, Hv; reflexivity|].
  split; [exact Ho1|].
  apply lookup_app_l_Some. exact Ho1.
Qed.

Lemma reset_forces_rebuild_witness :
  allocated state_example = true ∧
  ∃ l1 s1 s2 s3 s4 l2 s5 o1 c2 a2,
    Config_get_instance state_example = Ok (Some l1, s1) ∧
    run_env [Setenv "DB_HOST" "10.0.0.7"] s1 = Ok (tt, s2) ∧
    Config_reset s2 = Ok (tt, s3) ∧
    run_env [Delenv "DB_PORT"; Setenv "DB_USER" "ems"] s3 = Ok (tt, s4) ∧
    Config_get_instance s4 = Ok (Some l2, s5) ∧
    l2 ≠ l1 ∧
    environ s4 =
      <["DB_USER" := "ems"]>
        (delete "DB_PORT" (<["DB_HOST" := "10.0.0.7"]> env_example)) ∧
    heap s5 !! l2 = Some {| database := Some c2; app := Some a2 |} ∧
    c2 = {| dbname := "empls_db"; user := "ems"; password := "0123";
            host := "10.0.0.7"; port := "5432" |} ∧
    heap s1 !! l1 = Some o1 ∧
    heap s5 !! l1 = Some o1 ∧
    database o1 = Some {| dbname := "empls_db"; user := "postgres";
                          password := "0123"; host := "db.example.internal";
                          port := "6543" |}.
Proof.
  split; [reflexivity|].
  destruct (reset_forces_rebuild state_example
              [Setenv "DB_HOST" "10.0.0.7"]
              [Delenv "DB_PORT"; Setenv "DB_USER" "ems"] eq_refl)
    as (l1 & s1 & s2 & s3 & s4 & l2 & s5 & o1 & c2 & a2 & Hget1 & Hrun2 & Hreset
        & Hrun4 & Hget2 & Hne & Henv & Hnew & Hfields & _ & Hold1 & Hold5).
  exists l1, s1, s2, s3, s4, l2, s5, o1, c2, a2.
  do 6 (split; [assumption|]).
  split; [exact Henv|]. split; [exact Hnew|].
  split.
  { destruct c2 as [n u p h q].
    pose proof (Hfields F_dbname) as H1. pose proof (Hfields F_user) as H2.
    pose proof (Hfields F_password) as H3. pose proof (Hfields F_host) as H4.
    pose proof (Hfields F_port) as H5. cbn in H1, H2, H3, H4, H5.
    rewrite H1, H2, H3, H4, H5. reflexivity. }
  split; [exact Hold1|]. split; [exact Hold5|].
  injection Hget1 as Hl1 Hs1. subst l1 s1.
  injection Hold1 as Ho1. subst o1. reflexivity.
Defined.

End Rebuild.

(** * Reads of the environment along an execution *)

Section Executions.

Implicit Types (s : State) (ops : list Op).

Lemma run_op_eq (o : Op) s :
  well_formed s = true →
  ∃ s', run_op o s = Ok (tt, s') ∧
    reads s' = reads s ++ concat (replicate (constructions [o] (cached s)) db_vars) ∧
    length (heap s') = length (heap s) + constructions [o] (cached s) ∧
    cached s' = match o with
                | OpGetInstance => true
                | OpReset => false
                | OpEnv _ => cached s
                end ∧
    well_formed s' = true.
Proof.
  intros Hwf. destruct o as [| |e]; cbn [run_op constructions].
  - unfold bind, cached. destruct (_instance s) as [i|] eqn:Hi.
    + rewrite (get_instance_hit s i Hi). exists s. cbn.
      rewrite Hi, app_nil_r, Nat.add_0_r. repeat split. exact Hwf.
    + rewrite (get_instance_miss s Hi). eexists. split; [reflexivity|].
      cbn. rewrite length_app, list_lookup_middle by reflexivity.
      repeat split.
  - exists (with_instance None s). cbn.
    rewrite app_nil_r, Nat.add_0_r. repeat split.
  - destruct e as [k v|k]; cbn;
      (eexists; split; [reflexivity|]); cbn;
      rewrite app_nil_r, Nat.add_0_r; repeat split; exact Hwf.
Qed.

Lemma constructions_cons (o : Op) ops (b : bool) :
  constructions (o :: ops) b =
  constructions [o] b +
  constructions ops match o with
                    | OpGetInstance => true
                    | OpReset => false
                    | OpEnv _ => b
                    end.
Proof. destruct o; cbn; lia. Qed.

(** C8. Along any execution of retrievals, resets and environment
    changes from a well-formed state, every step returns, and the keys
    logged by [os.getenv] are the five variables, in order, once for each
    retrieval that found the cache empty and for nothing else; one object
    is allocated for each such retrieval; and the state reached is well
    formed again, so the cache never refers to an unfinished object. *)
Theorem env_read_once_per_construction ops s :
  well_formed s = true →
  ∃ s',
    run ops s = Ok (tt, s') ∧
    reads s' = reads s ++ concat (replicate (constructions ops (cached s)) db_vars) ∧
    length (heap s') = length (heap s) + constructions ops (cached s) ∧
    well_formed s' = true.
Proof.
  revert s. induction ops as [|o ops IH]; intros s Hwf.
  - exists s. cbn. rewrite app_nil_r, Nat.add_0_r. repeat split. exact Hwf.
  - destruct (run_op_eq o s Hwf) as (s1 & Hstep & Hreads1 & Hlen1 & Hc1 & Hwf1).
    destruct (IH s1 Hwf1) as (s' & Hrun & Hreads & Hlen & Hwf').
    exists s'. cbn [run]. unfold bind. rewrite Hstep.
    split; [exact Hrun|].
    rewrite constructions_cons, <- Hc1.
    split; [|split; [lia | exact Hwf']].
    rewrite Hreads, Hreads1, replicate_add, concat_app, app_assoc.
    reflexivity.
Qed.

Lemma env_read_once_per_construction_witness :
  well_formed state_example = true ∧
  ∃ s',
    run [OpGetInstance; OpReset; OpEnv (Setenv "DB_USER" "ems");
         OpGetInstance; OpGetInstance] state_example = Ok (tt, s') ∧
    reads s' = reads state_example ++ db_vars ∧
    length (heap s') = 3 ∧
    well_formed s' = true.
Proof.
  split; [reflexivity|].
  apply (env_read_once_per_construction
           [OpGetInstance; OpReset; OpEnv (Setenv "DB_USER" "ems");
            OpGetInstance; OpGetInstance] state_example).
  reflexivity.
Defined.

End Executions.

(** * Further properties of [DatabaseConfig.from_env] *)

Section FromEnvFurther.

Implicit Types (s : State) (f : DbField) (c : DatabaseConfig).

Lemma config_of_env_ext (e1 e2 : gmap string string) :
  (∀ f, e1 !! env_var f = e2 !! env_var f) →
  config_of_env e1 = config_of_env e2.
Proof.
  intros H. unfold config_of_env.
  pose proof (H F_dbname) as H1. pose proof (H F_user) as H2.
  pose proof (H F_password) as H3. pose proof (H F_host) as H4.
  pose proof (H F_port) as H5. cbn in H1, H2, H3, H4, H5.
  rewrite H1, H2, H3, H4, H5. reflexivity.
Qed.

(** X1. [from_env] has no effect on the program: it returns in every
    state, leaves the environment, every object and the singleton cache as
    they were, and asks [os.getenv] for DB_NAME, DB_USER, DB_PASSWORD,
    DB_HOST, DB_PORT, in this order and once each. *)
Theorem from_env_frame s :
  ∃ c s',
    DatabaseConfig_from_env s = Ok (c, s') ∧
    environ s' = environ s ∧ heap s' = heap s ∧ _instance s' = _instance s ∧
    reads s' = reads s ++ ["DB_NAME"; "DB_USER"; "DB_PASSWORD"; "DB_HOST"; "DB_PORT"].
Proof.
  eexists _, _. split; [apply from_env_eq|]. repeat split.
Qed.

(** X2. The record depends on the five variables only: two environments
    that agree on them, whatever else they hold, give the same record. *)
Theorem from_env_only_five_vars s1 s2 :
  (∀ f, environ s1 !! env_var f = environ s2 !! env_var f) →
  ∃ c s1' s2',
    DatabaseConfig_from_env s1 = Ok (c, s1') ∧
    DatabaseConfig_from_env s2 = Ok (c, s2').
Proof.
  intros Hagree. eexists _, _, _. split; [apply from_env_eq|].
  rewrite from_env_eq, (config_of_env_ext _ _ Hagree). reflexivity.
Qed.

Lemma from_env_only_five_vars_witness :
  ∃ c s1' s2',
    DatabaseConfig_from_env (initial env_example) = Ok (c, s1') ∧
    DatabaseConfig_from_env
      (initial (<["HOME" := "/root"]> (<["db_host" := "other"]> env_example)))
    = Ok (c, s2').
Proof.
  apply (from_env_only_five_vars (initial env_example)
           (initial (<["HOME" := "/root"]> (<["db_host" := "other"]> env_example)))).
  intros f; destruct f; reflexivity.
Defined.

(** X3. [from_env] builds the record that the constructor builds when it
    is given a keyword argument for each variable that is set and none for
    a variable that is unset. *)
Theorem from_env_as_keyword_construction s :
  ∃ s',
    DatabaseConfig_from_env s =
    Ok (DatabaseConfig_init (environ s !! "DB_NAME") (environ s !! "DB_USER")
          (environ s !! "DB_PASSWORD") (environ s !! "DB_HOST")
          (environ s !! "DB_PORT"), s').
Proof. eexists. apply from_env_eq. Qed.


(** A NUL byte in a value is refused, whatever the name and the state. *)
Lemma environ_setitem_checked_nul (key value : string) s :
  has_nul value = true →
  environ_setitem_checked key value s = Raise (ValueError "embedded null byte").
Proof.
  intros Hv. unfold environ_setitem_checked.
  rewrite Hv, orb_true_r. reflexivity.
Qed.

Example environ_setitem_checked_examples (e : gmap string string) :
  environ_setitem_checked "A=B" "x" (initial e)
    = Raise (ValueError "illegal environment variable name") ∧
  environ_setitem_checked "" "x" (initial e) = Raise (OSError 22) ∧
  environ_setitem_checked "DB_HOST" "" (initial e)
    = Ok (tt, initial (<["DB_HOST" := ""]> e)).
Proof. repeat split. Qed.

Example export_env_nul_refused (e : gmap string string) :
  export_env config_with_nul (initial e) = Raise (ValueError "embedded null byte").
Proof. reflexivity. Qed.



(** X5. [from_env] cannot tell an unset variable from one set to its
    default: setting an unset variable to the default of its field leaves
    the record as it is. *)
Theorem from_env_default_value_same_as_unset s f :
  environ s !! env_var f = None →
  ∃ c s1 s2 s3,
    DatabaseConfig_from_env s = Ok (c, s1) ∧
    environ_setitem (env_var f) (class_default f) s = Ok (tt, s2) ∧
    DatabaseConfig_from_env s2 = Ok (c, s3).
Proof.
  intros Hunset. eexists _, _, _, _. split; [apply from_env_eq|].
  split; [reflexivity|]. rewrite from_env_eq. cbn [environ with_environ].
  replace (config_of_env (<[env_var f := class_default f]> (environ s)))
    with (config_of_env (environ s)); [reflexivity|].
  unfold config_of_env.
  destruct f; cbn in Hunset |- *;
    repeat (first [rewrite lookup_insert_eq | rewrite lookup_insert_ne by done]);
    rewrite ?Hunset; reflexivity.
Qed.

Lemma from_env_default_value_same_as_unset_witness :
  environ (initial env_example) !! "DB_PASSWORD" = None ∧
  ∃ c s1 s2 s3,
    DatabaseConfig_from_env (initial env_example) = Ok (c, s1) ∧
    environ_setitem "DB_PASSWORD" "0123" (initial env_example) = Ok (tt, s2) ∧
    DatabaseConfig_from_env s2 = Ok (c, s3).
Proof.
  split; [reflexivity|].
  apply (from_env_default_value_same_as_unset (initial env_example) F_password).
  reflexivity.
Defined.

End FromEnvFurther.

(** * Further properties of the singleton *)

Section SingletonFurther.

Implicit Types (s : State) (l : loc) (ops : list Op).

(** The state one step leaves, without any assumption on the state it
    starts from. *)
Lemma run_op_state (o : Op) s :
  ∃ s',
    run_op o s = Ok (tt, s') ∧
    environ s' = match o with
                 | OpEnv e => apply_env_op e (environ s)
                 | _ => environ s
                 end ∧
    heap s' = heap s ++ (config_obj <$> built_from [o] (environ s) (cached s)) ∧
    reads s' = reads s ++
      concat (replicate (length (built_from [o] (environ s) (cached s))) db_vars) ∧
    cached s' = match o with
                | OpGetInstance => true
                | OpReset => false
                | OpEnv _ => cached s
                end.
Proof.
  destruct o as [| |e]; cbn [run_op built_from].
  - unfold bind, cached. destruct (_instance s) as [i|] eqn:Hi.
    + rewrite (get_instance_hit s i Hi). exists s. cbn.
      rewrite Hi, ?app_nil_r. repeat split.
    + rewrite (get_instance_miss s Hi). eexists. split; [reflexivity|].
      cbn. rewrite ?app_nil_r. repeat split.
  - exists (with_instance None s). cbn. rewrite ?app_nil_r. repeat split.
  - destruct e as [k v|k]; cbn;
      (eexists; split; [reflexivity|]); cbn; rewrite ?app_nil_r; repeat split.
Qed.

Lemma built_from_cons (o : Op) ops (env : gmap string string) (b : bool) :
  built_from (o :: ops) env b =
  built_from [o] env b ++
  built_from ops
    match o with
    | OpEnv e => apply_env_op e env
    | _ => env
    end
    match o with
    | OpGetInstance => true
    | OpReset => false
    | OpEnv _ => b
    end.
Proof. destruct o; cbn; rewrite ?app_nil_r; reflexivity. Qed.

Lemma apply_env_env_part_cons (o : Op) ops (env : gmap string string) :
  apply_env (env_part (o :: ops)) env =
  apply_env (env_part ops)
    match o with
    | OpEnv e => apply_env_op e env
    | _ => env
    end.
Proof. destruct o; reflexivity. Qed.

(** The state an execution leaves. *)
Lemma run_state ops s :
  ∃ s',
    run ops s = Ok (tt, s') ∧
    environ s' = apply_env (env_part ops) (environ s) ∧
    heap s' = heap s ++ (config_obj <$> built_from ops (environ s) (cached s)) ∧
    reads s' = reads s ++
      concat (replicate (length (built_from ops (environ s) (cached s))) db_vars).
Proof.
  revert s. induction ops as [|o ops IH]; intros s.
  - exists s. cbn. rewrite !app_nil_r. repeat split.
  - destruct (run_op_state o s) as (s1 & Hstep & Henv1 & Hheap1 & Hreads1 & Hc1).
    destruct (IH s1) as (s' & Hrun & Henv & Hheap & Hreads).
    exists s'. cbn [run]. unfold bind. rewrite Hstep.
    split; [exact Hrun|].
    rewrite apply_env_env_part_cons, built_from_cons, <- Henv1, <- Hc1.
    split; [exact Henv|].
    rewrite fmap_app, length_app, replicate_add, concat_app, !app_assoc.
    rewrite <- Hheap1, <- Hreads1. split; assumption.
Qed.

Lemma built_from_bound ops (env : gmap string string) (b : bool) :
  length (built_from ops env b) ≤ (if b then 0 else 1) + resets ops.
Proof.
  revert env b. induction ops as [|o ops IH]; intros env b; [cbn; lia|].
  destruct o as [| |e]; cbn [built_from resets].
  - rewrite length_app. specialize (IH env true). destruct b; cbn in *; lia.
  - specialize (IH env false). destruct b; cbn in *; lia.
  - apply IH.
Qed.

Lemma length_concat_db_vars (n : nat) :
  length (concat (replicate n db_vars)) = 5 * n.
Proof.
  induction n as [|n IH]; [reflexivity|].
  cbn [replicate concat]. rewrite length_app, IH. cbn. lia.
Qed.

(** X6. A cached instance is stale by design: whatever is done to the
    environment, the next retrieval returns the cached address, builds
    nothing and reads no variable. *)
Theorem cached_instance_ignores_env_changes s l (es : list EnvOp) :
  _instance s = Some l →
  ∃ s1,
    run_env es s = Ok (tt, s1) ∧
    Config_get_instance s1 = Ok (Some l, s1) ∧
    heap s1 = heap s ∧ reads s1 = reads s.
Proof.
  intros Hi. eexists. split; [apply run_env_apply|].
  split; [apply get_instance_hit; exact Hi|]. split; reflexivity.
Qed.

Lemma cached_instance_ignores_env_changes_witness :
  _instance state_example = Some 1 ∧
  ∃ s1,
    run_env [Setenv "DB_HOST" "10.0.0.7"; Delenv "DB_PORT"] state_example
      = Ok (tt, s1) ∧
    Config_get_instance s1 = Ok (Some 1, s1) ∧
    heap s1 = heap state_example ∧ reads s1 = reads state_example.
Proof.
  split; [reflexivity|].
  apply (cached_instance_ignores_env_changes state_example 1
           [Setenv "DB_HOST" "10.0.0.7"; Delenv "DB_PORT"]).
  reflexivity.
Defined.

(** X7. The constructor is not guarded: [Config()] called directly builds
    a finished object at a fresh address from the current environment and
    leaves the cache alone, so a cached instance is a different object and
    is still what the next retrieval returns. *)
Theorem direct_construction_bypasses_cache s l :
  _instance s = Some l → allocated s = true →
  ∃ l' s' d a,
    Config_call s = Ok (l', s') ∧
    heap s' !! l' = Some {| database := Some d; app := Some a |} ∧
    (∀ f, field_value f d = default (class_default f) (environ s !! env_var f)) ∧
    l' ≠ l ∧
    heap s' !! l = heap s !! l ∧
    Config_get_instance s' = Ok (Some l, s').
Proof.
  intros Hi Hal. unfold allocated in Hal. rewrite Hi in Hal.
  destruct (heap s !! l) as [o|] eqn:Ho; [|discriminate].
  eexists _, _, (config_of_env (environ s)), _.
  split; [apply Config_call_eq|]. cbn [heap].
  split; [apply list_lookup_middle; reflexivity|].
  split; [intros f; apply field_value_config_of_env|].
  split; [apply lookup_lt_Some in Ho; lia|].
  split; [apply lookup_app_l_Some; exact Ho|].
  apply get_instance_hit. exact Hi.
Qed.

Lemma direct_construction_bypasses_cache_witness :
  _instance state_example = Some 1 ∧ allocated state_example = true ∧
  ∃ l' s' d a,
    Config_call state_example = Ok (l', s') ∧
    heap s' !! l' = Some {| database := Some d; app := Some a |} ∧
    (∀ f, field_value f d =
          default (class_default f) (environ state_example !! env_var f)) ∧
    l' ≠ 1 ∧
    heap s' !! 1 = heap state_example !! 1 ∧
    Config_get_instance s' = Ok (Some 1, s').
Proof.
  split; [reflexivity|]. split; [reflexivity|].
  apply (direct_construction_bypasses_cache state_example 1); reflexivity.
Defined.

End SingletonFurther.

(** * Further properties of executions *)

Section ExecutionsFurther.

Implicit Types (s : State) (l : loc) (ops : list Op).

Example run_ops_example :
  built_from ops_example env_example false =
    [env_example; delete "DB_PORT" (<["DB_USER" := "ems"]> env_example)] ∧
  run ops_example (initial env_example) =
    Ok (tt, {| environ := delete "DB_PORT" (<["DB_USER" := "ems"]> env_example);
               heap := [config_obj env_example;
                        config_obj (delete "DB_PORT" (<["DB_USER" := "ems"]> env_example))];
               _instance := Some 1;
               reads := db_vars ++ db_vars |}).
Proof. split; vm_compute; reflexivity. Qed.

(** X8. Along any execution, from any state, the heap only grows: every
    object that exists stays at its address with its values, and the
    objects added are, in order, the finished objects built from the
    environment as it stood at each retrieval that found the cache
    empty. *)
Theorem run_heap_snapshots ops s :
  ∃ s',
    run ops s = Ok (tt, s') ∧
    heap s' = heap s ++ (config_obj <$> built_from ops (environ s) (cached s)) ∧
    (∀ l o, heap s !! l = Some o → heap s' !! l = Some o).
Proof.
  destruct (run_state ops s) as (s' & Hrun & _ & Hheap & _).
  exists s'. split; [exact Hrun|]. split; [exact Hheap|].
  intros l o Hl. rewrite Hheap. apply lookup_app_l_Some. exact Hl.
Qed.

(** X9. Retrievals and resets never write to the environment: after any
    execution the environment is what the environment changes of that
    execution alone produce. *)
Theorem run_environ ops s :
  ∃ s' s'',
    run ops s = Ok (tt, s') ∧
    run_env (env_part ops) s = Ok (tt, s'') ∧
    environ s' = environ s''.
Proof.
  destruct (run_state ops s) as (s' & Hrun & Henv & _).
  eexists s', _. split; [exact Hrun|].
  split; [apply run_env_apply|]. exact Henv.
Qed.

(** X10. An execution builds at most one object per reset, plus one if
    the cache is empty at the start, and reads at most five variables for
    each of them. *)
Theorem constructions_bounded_by_resets ops s :
  ∃ s',
    run ops s = Ok (tt, s') ∧
    length (heap s') ≤ length (heap s) + (if cached s then 0 else 1) + resets ops ∧
    length (reads s') ≤
      length (reads s) + 5 * ((if cached s then 0 else 1) + resets ops).
Proof.
  destruct (run_state ops s) as (s' & Hrun & _ & Hheap & Hreads).
  exists s'. split; [exact Hrun|].
  pose proof (built_from_bound ops (environ s) (cached s)) as Hb.
  rewrite Hheap, Hreads, !length_app, length_fmap, length_concat_db_vars.
  split; lia.
Qed.

(** X11. Started from a fresh process, every object an execution ever
    builds is finished and carries the fixed application settings. *)
Theorem every_instance_has_fixed_app (e : gmap string string) ops :
  ∃ s',
    run ops (initial e) = Ok (tt, s') ∧
    ∀ l o, heap s' !! l = Some o →
      ∃ d, o = {| database := Some d;
                  app := Some {| app_name := "Employee Systems"; version := "1.01";
                                 debug := false; log_level := "INFO";
                                 log_file_pattern := "app_errors_{date}.log" |} |}.
Proof.
  destruct (run_state ops (initial e)) as (s' & Hrun & _ & Hheap & _).
  exists s'. split; [exact Hrun|].
  intros l o Hl. rewrite Hheap in Hl. cbn [heap initial] in Hl.
  rewrite app_nil_l in Hl.
  apply list_lookup_fmap_Some in Hl as (e' & -> & _).
  exists (config_of_env e'). reflexivity.
Qed.

(** X12. With the cache empty and the environment left alone, retrieve,
    reset, retrieve gives two different addresses holding equal values. *)
Theorem rebuild_same_env_equal_values s :
  _instance s = None →
  ∃ l1 s1 s2 l2 s3 o,
    Config_get_instance s = Ok (Some l1, s1) ∧
    Config_reset s1 = Ok (tt, s2) ∧
    Config_get_instance s2 = Ok (Some l2, s3) ∧
    l1 ≠ l2 ∧
    heap s3 !! l1 = Some o ∧ heap s3 !! l2 = Some o ∧ fully_built o = true.
Proof.
  intros Hi.
  eexists _, _, _, _, _, (config_obj (environ s)).
  split; [apply get_instance_miss; exact Hi|].
  split; [reflexivity|].
  split; [apply get_instance_miss; reflexivity|].
  cbn [heap environ with_instance]. rewrite length_app. cbn [length].
  split; [lia|].
  split; [apply lookup_app_l_Some, list_lookup_middle; reflexivity|].
  split; [|reflexivity].
  apply list_lookup_middle. rewrite length_app. reflexivity.
Qed.

Lemma rebuild_same_env_equal_values_witness :
  _instance (initial env_example) = None ∧
  ∃ l1 s1 s2 l2 s3 o,
    Config_get_instance (initial env_example) = Ok (Some l1, s1) ∧
    Config_reset s1 = Ok (tt, s2) ∧
    Config_get_instance s2 = Ok (Some l2, s3) ∧
    l1 ≠ l2 ∧
    heap s3 !! l1 = Some o ∧ heap s3 !! l2 = Some o ∧ fully_built o = true.
Proof.
  split; [reflexivity|].
  apply (rebuild_same_env_equal_values (initial env_example)). reflexivity.
Defined.

(** X13. The cached object is shared, not copied: a store to its
    [database] attribute through the cached address is what the next
    retrieval sees, and it is dropped by a reset, after which retrieval
    builds a new object from the environment while the old one keeps the
    stored value. *)
Theorem mutation_visible_until_reset s l (o : ConfigObj) (d : DatabaseConfig) :
  _instance s = Some l → heap s !! l = Some o →
  ∃ s1 s2 l2 s3 d2 a2,
    setattr l (store_database d) s = Ok (tt, s1) ∧
    Config_get_instance s1 = Ok (Some l, s1) ∧
    heap s1 !! l = Some {| database := Some d; app := app o |} ∧
    Config_reset s1 = Ok (tt, s2) ∧
    Config_get_instance s2 = Ok (Some l2, s3) ∧
    l2 ≠ l ∧
    heap s3 !! l2 = Some {| database := Some d2; app := Some a2 |} ∧
    (∀ f, field_value f d2 = default (class_default f) (environ s !! env_var f)) ∧
    heap s3 !! l = Some {| database := Some d; app := app o |}.
Proof.
  intros Hi Ho. pose proof (lookup_lt_Some _ _ _ Ho) as Hlt.
  eexists _, _, _, _, (config_of_env (environ s)), _.
  split; [unfold setattr; rewrite Ho; reflexivity|].
  split; [apply get_instance_hit; exact Hi|].
  cbn [heap with_heap].
  split; [apply list_lookup_insert_eq; exact Hlt|].
  split; [reflexivity|].
  split; [apply get_instance_miss; reflexivity|].
  cbn [heap environ with_heap with_instance]. rewrite length_insert.
  split; [lia|].
  split; [apply list_lookup_middle; rewrite length_insert; reflexivity|].
  split; [intros f; apply field_value_config_of_env|].
  apply lookup_app_l_Some, list_lookup_insert_eq. exact Hlt.
Qed.

Lemma mutation_visible_until_reset_witness :
  _instance state_example = Some 1 ∧
  heap state_example !! 1 = Some (config_obj env_example) ∧
  ∃ s1 s2 l2 s3 d2 a2,
    setattr 1 (store_database config_example) state_example = Ok (tt, s1) ∧
    Config_get_instance s1 = Ok (Some 1, s1) ∧
    heap s1 !! 1 = Some {| database := Some config_example;
                           app := app (config_obj env_example) |} ∧
    Config_reset s1 = Ok (tt, s2) ∧
    Config_get_instance s2 = Ok (Some l2, s3) ∧
    l2 ≠ 1 ∧
    heap s3 !! l2 = Some {| database := Some d2; app := Some a2 |} ∧
    (∀ f, field_value f d2 =
          default (class_default f) (environ state_example !! env_var f)) ∧
    heap s3 !! 1 = Some {| database := Some config_example;
                           app := app (config_obj env_example) |}.
Proof.
  split; [reflexivity|]. split; [reflexivity|].
  apply (mutation_visible_until_reset state_example 1
           (config_obj env_example) config_example); reflexivity.
Defined.

End ExecutionsFurther.
